(** * Drupal project estimation calculator: a shallow embedding

    Source: [website-audit/scripts/calculate_estimate.py].

    The script turns an inventory of entities (a JSON object) into an
    itemised hour estimate and renders it as a report.  This file embeds the
    estimation functions and the numeric content of the report, and proves
    the properties the specification states about them.

    Numbers.  The script computes with Python [float]s (IEEE 754 binary64)
    and small [int]s.  Every function below is written once, over a type
    [num] carrying the operations the script uses (class [Number]), and is
    run at two instances:
    - [binary64]: Rocq's primitive floats, which are Python's floats bit for
      bit; this is what the script evaluates;
    - [exact]: canonical rationals [Qc], the arithmetic of the
      specification's formulas, free of rounding.
    Facts that follow from the shape of the computation are proved for every
    instance; facts that need the laws of arithmetic are proved at [exact];
    concrete scenarios are evaluated at both.

    Inputs.  The functions are embedded at the types their annotations give:
    an entity is a [Dict[str, str]], an inventory maps keys to lists of
    entities, multipliers are a [Dict[str, float]].  Dictionaries that are
    only looked up are [gmap]s; dictionaries that are iterated keep their
    insertion order as lists of pairs. *)

From Stdlib Require Import ZArith QArith Qcanon Lia Lra Ascii String.
From Stdlib Require Import PrimFloat SpecFloat FloatOps FloatAxioms.
From stdpp Require Import base option list strings gmap.

Set Default Proof Using "Type".

(** ** Exceptions *)

Inductive exn :=
| ValueError (msg : string)
| ZeroDivisionError.

Inductive exc (A : Type) :=
| Ok (a : A)
| Raise (e : exn).
Arguments Ok {A} a.
Arguments Raise {A} e.

#[global] Instance exc_ret : MRet exc := fun A a => Ok a.
#[global] Instance exc_bind : MBind exc := fun A B f m =>
  match m with
  | Ok a => f a
  | Raise e => Raise e
  end.

Definition returns {A} (m : exc A) : Prop := exists a, m = Ok a.

(** A [for] loop whose body may raise: the loop state is threaded from one
    iteration to the next, and the first exception ends the loop. *)
Fixpoint for_each {S A} (body : S -> A -> exc S) (st : S) (xs : list A) : exc S :=
  match xs with
  | [] => Ok st
  | x :: xs' => st' ← body st x; for_each body st' xs'
  end.

(** ** Strings *)

(** [str.lower()] on the ASCII letters. *)
Definition lower_ascii (a : ascii) : ascii :=
  let n := N_of_ascii a in
  if ((65 <=? n) && (n <=? 90))%N then ascii_of_N (n + 32) else a.

Fixpoint lower (s : string) : string :=
  match s with
  | EmptyString => EmptyString
  | String a s' => String (lower_ascii a) (lower s')
  end.

(** ** Dictionaries that are iterated *)

(** [d[key] = value] on an insertion-ordered dictionary: an existing key
    keeps its position, a new key goes last. *)
Fixpoint dict_set {V} (key : string) (value : V) (d : list (string * V)) : list (string * V) :=
  match d with
  | [] => [(key, value)]
  | (k, v) :: d' =>
      if String.eqb k key then (k, value) :: d' else (k, v) :: dict_set key value d'
  end.

(** ** Numbers *)

Class Number (num : Type) := {
  (** a Python [int] entering float arithmetic *)
  of_int : Z -> num;
  (** the decimal literal [m / 10^k], as in [0.18 = dec 18 2] *)
  dec : Z -> nat -> num;
  add : num -> num -> num;
  sub : num -> num -> num;
  mul : num -> num -> num;
  (** true division by a non-zero divisor *)
  div : num -> num -> num;
  (** [==] *)
  eqb : num -> num -> bool;
  (** [<=] *)
  leb : num -> num -> bool;
}.

Declare Scope num_scope.
Delimit Scope num_scope with num.
Infix "+" := add : num_scope.
Infix "-" := sub : num_scope.
Infix "*" := mul : num_scope.
Infix "/" := div : num_scope.
Infix "==" := eqb (at level 70, no associativity) : num_scope.
Infix "<=?" := leb : num_scope.

(** ** Data model *)

Record EntityEstimate {num : Type} := {
  name : string;
  type : string;
  complexity : string;
  hours : num;
}.
Arguments EntityEstimate num : clear implicits.

Record EstimationResult {num : Type} := {
  base_hours : num;
  multiplier_hours : num;
  migration_hours : num;
  additional_hours : num;
  subtotal : num;
  buffer_hours : num;
  total_hours : num;
  entity_breakdown : list (EntityEstimate num);
  multipliers_applied : list (string * num);
  assumptions : list string;
  risks : list string;
}.
Arguments EstimationResult num : clear implicits.

(** The [migration] object: [nodes] and [complexity], each possibly absent. *)
Record migration_config := {
  get_nodes : option Z;
  get_mig_complexity : option string;
}.

(** [{}] *)
Definition no_migration : migration_config :=
  {| get_nodes := None; get_mig_complexity := None |}.

(** [not migration_config]: the dictionary is empty. *)
Definition is_empty_config (c : migration_config) : bool :=
  match get_nodes c, get_mig_complexity c with
  | None, None => true
  | _, _ => false
  end.

(** The input document [entities_data].  Each [get_x] field is what
    [entities_data.get("x")] finds ([None] when the key is absent);
    [get_entities] holds every other key, each with its list of entity
    records, the category keys among them. *)
Record entities_data {num : Type} := {
  get_entities : gmap string (list (gmap string string));
  get_multipliers : option (list (string * num));
  get_migration : option migration_config;
  get_risk_level : option string;
  get_assumptions : option (list string);
  get_risks : option (list string);
  get_project_name : option string;
  get_audit_date : option string;
}.
Arguments entities_data num : clear implicits.

(** ** The estimation engine *)

Section Engine.
Context {num : Type} `{Number num}.
Local Open Scope num_scope.

(** Estimation tables (hours) *)
Definition ESTIMATION_TABLE : gmap string (gmap string num) :=
  list_to_map [
    ("content_type",
      list_to_map [("simple", of_int 3); ("medium", of_int 6); ("complex", of_int 12)]);
    ("paragraph",
      list_to_map [("simple", dec 15 1); ("medium", dec 35 1); ("complex", of_int 6)]);
    ("taxonomy",
      list_to_map [("simple", dec 15 1); ("medium", of_int 3); ("complex", of_int 6)]);
    ("media_type",
      list_to_map [("simple", dec 15 1); ("medium", of_int 3); ("complex", dec 35 1)]);
    ("view",
      list_to_map [("simple", of_int 3); ("medium", of_int 6); ("complex", of_int 12)]);
    ("webform",
      list_to_map [("simple", of_int 3); ("medium", of_int 6); ("complex", of_int 12)]);
    ("block",
      list_to_map [("simple", dec 15 1); ("medium", of_int 3); ("complex", of_int 6)]);
    ("custom_module",
      list_to_map [("simple", of_int 12); ("medium", of_int 28); ("complex", of_int 70)]);
    ("theme_component",
      list_to_map [("simple", of_int 3); ("medium", of_int 6); ("complex", of_int 12)])
  ].

(** Migration effort (per 100 nodes) *)
Definition MIGRATION_BASE : Z := 10.
Definition MIGRATION_MULTIPLIERS : gmap string num :=
  list_to_map [("simple", dec 10 1); ("medium", dec 20 1); ("complex", dec 35 1)].

(** Additional effort (fixed hours) *)
Definition ADDITIONAL_EFFORT : gmap string Z :=
  list_to_map [("infrastructure_setup", 60%Z); ("training_handover", 30%Z)].

(** Buffer percentages *)
Definition BUFFER_PERCENTAGES : gmap string num :=
  list_to_map [("low", dec 15 2); ("medium", dec 20 2); ("high", dec 25 2)].

(** Calculate hours for a single entity. *)
Definition calculate_entity_hours (entity : gmap string string) (entity_type : string)
  : exc (EntityEstimate num) :=
  let name := default "Unknown" (entity !! "name") in
  let complexity := lower (default "medium" (entity !! "complexity")) in
  match ESTIMATION_TABLE !! entity_type with
  | None => Raise (ValueError ("Unknown entity type: " +:+ entity_type))
  | Some row =>
      let hours := default (of_int 0) (row !! complexity) in
      Ok {| name := name; type := entity_type; complexity := complexity; hours := hours |}
  end.

Definition entity_type_map : list (string * string) := [
  ("content_types", "content_type");
  ("paragraphs", "paragraph");
  ("taxonomies", "taxonomy");
  ("media_types", "media_type");
  ("views", "view");
  ("webforms", "webform");
  ("blocks", "block");
  ("custom_modules", "custom_module");
  ("theme_components", "theme_component")
].

(** The body of the inner loop of [calculate_base_hours]; the loop state is
    [(total_hours, breakdown)]. *)
Definition add_entity (entity_type : string)
    (st : num * list (EntityEstimate num)) (entity : gmap string string)
  : exc (num * list (EntityEstimate num)) :=
  estimate ← calculate_entity_hours entity entity_type;
  Ok (st.1 + hours estimate, st.2 ++ [estimate]).

(** The body of the outer loop: one item of [entity_type_map]. *)
Definition add_category (entities : gmap string (list (gmap string string)))
    (st : num * list (EntityEstimate num)) (item : string * string)
  : exc (num * list (EntityEstimate num)) :=
  match entities !! item.1 with
  | Some records => for_each (add_entity item.2) st records
  | None => Ok st
  end.

(** Calculate base hours from entity inventory. *)
Definition calculate_base_hours (entities : gmap string (list (gmap string string)))
  : exc (num * list (EntityEstimate num)) :=
  for_each (add_category entities) (dec 0 1, []) entity_type_map.

(** Calculate migration effort. *)
Definition calculate_migration_hours (migration_config : migration_config) : num :=
  if is_empty_config migration_config then dec 0 1
  else
    let base_setup := 30%Z in
    let nodes := default 0%Z (get_nodes migration_config) in
    let complexity := lower (default "medium" (get_mig_complexity migration_config)) in
    if (nodes =? 0)%Z then dec 0 1
    else
      let multiplier := default (dec 20 1) (MIGRATION_MULTIPLIERS !! complexity) in
      let hours_per_100 := of_int MIGRATION_BASE * multiplier in
      let node_hours := (of_int nodes / of_int 100) * hours_per_100 in
      of_int base_setup + node_hours.

(** The body of the loop of [apply_multipliers]; the loop state is
    [(total_multiplier_hours, applied)]. *)
Definition add_multiplier (base_hours : num)
    (st : num * list (string * num)) (item : string * num) : num * list (string * num) :=
  let hours := base_hours * item.2 in
  (st.1 + hours, dict_set item.1 hours st.2).

(** Apply percentage multipliers to base hours. *)
Definition apply_multipliers (base_hours : num) (multipliers : list (string * num))
  : num * list (string * num) :=
  foldl (add_multiplier base_hours) (dec 0 1, []) multipliers.

(** Calculate project management hours. *)
Definition calculate_pm_hours (subtotal : num) : num := subtotal * dec 18 2.

Definition default_assumptions : list string := [
  "Requirements are clearly defined";
  "Team has Drupal experience";
  "Standard development practices followed";
  "No major scope changes expected"
].

Definition default_risks : list string := [
  "Requirements may evolve during development";
  "Migration complexity may be higher than assessed";
  "Third-party integrations may require additional effort"
].

(** [ADDITIONAL_EFFORT["infrastructure_setup"]] and
    [ADDITIONAL_EFFORT["training_handover"]]: both keys are in the table. *)
Definition infrastructure : Z := ADDITIONAL_EFFORT !!! "infrastructure_setup".
Definition training : Z := ADDITIONAL_EFFORT !!! "training_handover".

(** [subtotal_before_pm], the running subtotal on which project management
    is charged. *)
Definition subtotal_before_pm (base_hours multiplier_hours migration_hours : num) : num :=
  base_hours + multiplier_hours + migration_hours + of_int infrastructure + of_int training.

(** Calculate complete project estimate. *)
Definition calculate_estimate (data : entities_data num) : exc (EstimationResult num) :=
  (* Base hours *)
  '(base_hours, breakdown) ← calculate_base_hours (get_entities data);
  (* Multipliers *)
  let multipliers := default [] (get_multipliers data) in
  let '(multiplier_hours, applied_multipliers) := apply_multipliers base_hours multipliers in
  (* Migration *)
  let migration_config := default no_migration (get_migration data) in
  let migration_hours := calculate_migration_hours migration_config in
  (* PM hours (calculated on subtotal before buffer) *)
  let subtotal_before_pm := subtotal_before_pm base_hours multiplier_hours migration_hours in
  let pm_hours := calculate_pm_hours subtotal_before_pm in
  let additional_hours := of_int (infrastructure + training) + pm_hours in
  (* Subtotal *)
  let subtotal := subtotal_before_pm + pm_hours in
  (* Buffer *)
  let risk_level := lower (default "medium" (get_risk_level data)) in
  let buffer_percentage := default (dec 20 2) (BUFFER_PERCENTAGES !! risk_level) in
  let buffer_hours := subtotal * buffer_percentage in
  (* Total *)
  let total_hours := subtotal + buffer_hours in
  (* Assumptions and risks *)
  let assumptions := default default_assumptions (get_assumptions data) in
  let risks := default default_risks (get_risks data) in
  Ok {| base_hours := base_hours;
        multiplier_hours := multiplier_hours;
        migration_hours := migration_hours;
        additional_hours := additional_hours;
        subtotal := subtotal;
        buffer_hours := buffer_hours;
        total_hours := total_hours;
        entity_breakdown := breakdown;
        multipliers_applied := applied_multipliers;
        assumptions := assumptions;
        risks := risks |}.

End Engine.

(** ** The report *)

(** The numeric content of the report text, before it is printed: the
    f-string conversions ([:.1f], [:.0f], [.title()]) are presentation and
    are not embedded. *)
Record report {num : Type} := {
  rp_project_name : string;
  (** Summary: metric, hours, % of total *)
  rp_summary : list (string * num * num);
  rp_total : num;
  (** Timeline projections: hours per week, weeks, months *)
  rp_timeline : list (Z * num * num);
  (** Estimate ranges: confidence, hours, months at 30h/week *)
  rp_ranges : list (string * num * num);
  (** Base hours by entity type: type, rows, subtotal *)
  rp_breakdown : list (string * list (EntityEstimate num) * num);
  (** Multipliers applied: multiplier, percentage, hours *)
  rp_multipliers : list (string * num * num);
  (** Migration effort: nodes, complexity, hours; [None] prints
      "No migration required." *)
  rp_migration : option (Z * string * num);
  rp_pm_hours : num;
  rp_additional : num;
  rp_risk_level : string;
  rp_buffer_percentage : num;
  rp_buffer_hours : num;
  rp_assumptions : list (nat * string);
  rp_risks : list (nat * string);
  rp_generated : string;
}.
Arguments report num : clear implicits.

Section Formatter.
Context {num : Type} `{Number num}.
Local Open Scope num_scope.

(** [a / b] where [b] may be zero: Python raises [ZeroDivisionError]. *)
Definition true_div (a b : num) : exc num :=
  if b == of_int 0 then Raise ZeroDivisionError else Ok (a / b).

(** [by_type[entity.type].append(entity)], creating the group on first use. *)
Fixpoint group_append (entity : EntityEstimate num)
    (by_type : list (string * list (EntityEstimate num)))
  : list (string * list (EntityEstimate num)) :=
  match by_type with
  | [] => [(type entity, [entity])]
  | (t, entities) :: rest =>
      if String.eqb t (type entity) then (t, entities ++ [entity]) :: rest
      else (t, entities) :: group_append entity rest
  end.

(** [sum(e.hours for e in entities)] *)
Definition sum_hours (entities : list (EntityEstimate num)) : num :=
  foldl (fun acc e => acc + hours e) (of_int 0) entities.

(** Format entity breakdown as markdown table. *)
Definition format_breakdown_table (breakdown : list (EntityEstimate num))
  : list (string * list (EntityEstimate num) * num) :=
  let by_type := foldl (fun by_type entity => group_append entity by_type) [] breakdown in
  map (fun '(entity_type, entities) => (entity_type, entities, sum_hours entities)) by_type.

(** [x / total * 100] *)
Definition percent_of (x total : num) : exc num :=
  q ← true_div x total; Ok (q * of_int 100).

(** The body of the loop over [result.multipliers_applied]. *)
Definition multiplier_row (base_hours : num)
    (rows : list (string * num * num)) (item : string * num)
  : exc (list (string * num * num)) :=
  percentage ← percent_of item.2 base_hours;
  Ok (rows ++ [(item.1, percentage, item.2)]).

(** [enumerate(xs, 1)] *)
Definition enumerate1 {A} (xs : list A) : list (nat * A) :=
  zip (seq 1 (length xs)) xs.

(** Format complete estimation report. *)
Definition format_estimation_report (result : EstimationResult num) (data : entities_data num)
  : exc (report num) :=
  let project_name := default "Website Audit" (get_project_name data) in
  let total := total_hours result in
  (* Summary *)
  base_pct ← percent_of (base_hours result) total;
  multiplier_pct ← percent_of (multiplier_hours result) total;
  migration_pct ← percent_of (migration_hours result) total;
  additional_pct ← percent_of (additional_hours result) total;
  subtotal_pct ← percent_of (subtotal result) total;
  buffer_pct ← percent_of (buffer_hours result) total;
  let risk_level := default "medium" (get_risk_level data) in
  let summary := [
    ("Base Hours (Entities)", base_hours result, base_pct);
    ("Multipliers", multiplier_hours result, multiplier_pct);
    ("Migration", migration_hours result, migration_pct);
    ("Additional Effort", additional_hours result, additional_pct);
    ("Subtotal", subtotal result, subtotal_pct);
    ("Buffer", buffer_hours result, buffer_pct)
  ] in
  (* Timeline projections *)
  let timeline := [
    (40%Z, total / of_int 40, total / of_int 160);
    (30%Z, total / of_int 30, total / of_int 120);
    (20%Z, total / of_int 20, total / of_int 80)
  ] in
  (* Estimate ranges *)
  let ranges := [
    ("Optimistic (Base)", base_hours result, base_hours result / of_int 120);
    ("Likely (Recommended)", total, total / of_int 120);
    ("Pessimistic (+30%)", total * dec 13 1, total * dec 13 1 / of_int 120)
  ] in
  (* Multipliers applied *)
  multiplier_rows ←
    for_each (multiplier_row (base_hours result)) [] (multipliers_applied result);
  (* Migration effort *)
  let migration := default no_migration (get_migration data) in
  let migration_section :=
    if negb (is_empty_config migration) && (0 <? default 0 (get_nodes migration))%Z
    then Some (default 0%Z (get_nodes migration),
               default "medium" (get_mig_complexity migration),
               migration_hours result)
    else None in
  Ok {| rp_project_name := project_name;
        rp_summary := summary;
        rp_total := total;
        rp_timeline := timeline;
        rp_ranges := ranges;
        rp_breakdown := format_breakdown_table (entity_breakdown result);
        rp_multipliers := multiplier_rows;
        rp_migration := migration_section;
        rp_pm_hours :=
          additional_hours result - of_int infrastructure - of_int training;
        rp_additional := additional_hours result;
        rp_risk_level := risk_level;
        rp_buffer_percentage :=
          default (dec 20 2) (BUFFER_PERCENTAGES !! lower risk_level) * of_int 100;
        rp_buffer_hours := buffer_hours result;
        rp_assumptions := enumerate1 (assumptions result);
        rp_risks := enumerate1 (risks result);
        rp_generated := default "2025-11-13" (get_audit_date data) |}.

End Formatter.

(** ** The two arithmetics *)

(** A Python [int] as a [float]: the nearest binary64 value. *)
Definition float_of_Z (z : Z) : float :=
  SF2Prim (binary_normalize prec emax z 0 false).

(** Python's [float]: IEEE 754 binary64, round to nearest even.  A decimal
    literal is the double nearest to it; for the literals of the script that
    is the correctly rounded quotient of two integers that are themselves
    doubles. *)
#[global] Instance binary64 : Number float := {|
  of_int := float_of_Z;
  dec m k := PrimFloat.div (float_of_Z m) (float_of_Z (10 ^ Z.of_nat k));
  add := PrimFloat.add;
  sub := PrimFloat.sub;
  mul := PrimFloat.mul;
  div := PrimFloat.div;
  eqb := PrimFloat.eqb;
  leb := PrimFloat.leb;
|}.

Definition Qc_of_Z (z : Z) : Qc := Q2Qc (inject_Z z).

(** Exact rational arithmetic. *)
#[global] Instance exact : Number Qc := {|
  of_int := Qc_of_Z;
  dec m k := Qcdiv (Qc_of_Z m) (Qc_of_Z (10 ^ Z.of_nat k));
  add := Qcplus;
  sub := Qcminus;
  mul := Qcmult;
  div := Qcdiv;
  eqb := Qc_eq_bool;
  leb x y := Qle_bool x y;
|}.

(** ** The base hours as a function of the inventory *)

Section Breakdown.
Context {num : Type} `{Number num}.
Local Open Scope num_scope.

(** The estimate [calculate_entity_hours] returns for an entity of a type
    that the table knows. *)
Definition estimate_of (entity_type : string) (entity : gmap string string)
  : EntityEstimate num :=
  let complexity := lower (default "medium" (entity !! "complexity")) in
  {| name := default "Unknown" (entity !! "name");
     type := entity_type;
     complexity := complexity;
     hours := default (of_int 0) (ESTIMATION_TABLE !! entity_type ≫= (.!! complexity)) |}.

(** The estimates of one item of [entity_type_map], in input order. *)
Definition category_breakdown (entities : gmap string (list (gmap string string)))
    (item : string * string) : list (EntityEstimate num) :=
  estimate_of item.2 <$> default [] (entities !! item.1).

(** The estimates of the whole inventory: category by category in the order
    of [entity_type_map], and within a category in input order. *)
Definition breakdown_of (entities : gmap string (list (gmap string string)))
  : list (EntityEstimate num) :=
  entity_type_map ≫= category_breakdown entities.

(** [total_hours += estimate.hours] along a breakdown. *)
Definition accumulate_hours (total : num) (breakdown : list (EntityEstimate num)) : num :=
  foldl (fun total estimate => total + hours estimate) total breakdown.

End Breakdown.

(** [pm_hours] as [calculate_estimate] computes it from the three stages
    before it. *)
Definition pm_hours_of {num} `{Number num} (r : EstimationResult num) : num :=
  calculate_pm_hours
    (subtotal_before_pm (base_hours r) (multiplier_hours r) (migration_hours r)).

(** ** Stating what a computation returns *)

(** [m] returns, and what it returns satisfies [P]. *)
Definition returns_with {A} (m : exc A) (P : A -> Prop) : Prop :=
  match m with
  | Ok a => P a
  | Raise _ => False
  end.


(** ** Sample inputs *)

(** [{"name": n, "complexity": c}] *)
Definition entity_record (n c : string) : gmap string string :=
  {[ "name" := n; "complexity" := c ]}.

(** An input document with an inventory and nothing else. *)
Definition inventory_only {num} (entities : gmap string (list (gmap string string)))
  : entities_data num :=
  {| get_entities := entities;
     get_multipliers := None;
     get_migration := None;
     get_risk_level := None;
     get_assumptions := None;
     get_risks := None;
     get_project_name := None;
     get_audit_date := None |}.



(** One complex custom module (70) and content types worth 12 + 12 + 6:
    100 base hours, no multipliers, no migration. *)
Definition hundred_base_hours : gmap string (list (gmap string string)) :=
  {[ "custom_modules" := [entity_record "Importer" "complex"];
     "content_types" := [entity_record "Landing" "complex";
                         entity_record "Event" "complex";
                         entity_record "Article" "medium"] ]}.




(** The complexity tiers of the estimation table. *)
Definition complexity_tiers : list string := ["simple"; "medium"; "complex"].

(** [{"name": "Dragon", "complexity": "legendary"}] *)
Definition legendary_entity : gmap string string := entity_record "Dragon" "legendary".

(** [{"multipliers": {"testing": 0.25}}]: no entities, one multiplier. *)
Definition multipliers_without_entities {num} `{Number num} : entities_data num :=
  {| get_entities := ∅;
     get_multipliers := Some [("testing", dec 25 2)];
     get_migration := None;
     get_risk_level := None;
     get_assumptions := None;
     get_risks := None;
     get_project_name := None;
     get_audit_date := None |}.

(** The division faults of the formatter: [total_hours] is zero, or
    [base_hours] is zero and there is a multiplier row to print. *)
Definition divides_by_zero {num} `{Number num} (result : EstimationResult num) : bool :=
  (total_hours result == of_int 0)%num
  || ((base_hours result == of_int 0)%num
      && negb (bool_decide (multipliers_applied result = []))).

(** Estimate, then format the estimate: what [main] does. *)
Definition estimate_and_format {num} `{Number num} (data : entities_data num)
  : exc (report num) :=
  result ← calculate_estimate data; format_estimation_report result data.

(** Two inventories with the same keys, each sequence of entity records a
    permutation of the other's. *)
Definition reordered (entities entities' : gmap string (list (gmap string string))) : Prop :=
  forall key : string, option_Forall2 Permutation (entities !! key) (entities' !! key).


(** Three content types, and the same three in another order. *)
Definition three_content_types : gmap string (list (gmap string string)) :=
  {[ "content_types" := [entity_record "Page" "simple";
                         entity_record "Article" "medium";
                         entity_record "Landing" "complex"] ]}.

Definition three_content_types_reordered : gmap string (list (gmap string string)) :=
  {[ "content_types" := [entity_record "Landing" "complex";
                         entity_record "Page" "simple";
                         entity_record "Article" "medium"] ]}.


(** ** Half-integers in binary64 *)

(** Every hour value of the estimation table is a whole number of half
    hours.  [float_halves x] is the binary64 value of [x / 2]. *)
Definition SF_halves (x : Z) : spec_float := binary_normalize prec emax x (-1) false.
Definition float_halves (x : Z) : float := SF2Prim (SF_halves x).

(** The canonical representation of [x / 2] for [0 < x < 2^53]: a
    53-bit mantissa and the exponent that goes with it. *)
Definition canonical_halves (x : Z) : spec_float :=
  S754_finite false (Z.to_pos (x * 2 ^ (52 - Z.log2 x))) (Z.log2 x - 53).

(** A right-shift accumulator that has lost no bit so far. *)
Definition exact_record (m : Z) : shr_record :=
  {| shr_m := m; shr_r := false; shr_s := false |}.

(** The number of half hours of an hour value of the estimation table. *)
Definition halves_of_hours (h : float) : Z :=
  if (h =? 1.5)%float then 3
  else if (h =? 3)%float then 6
  else if (h =? 3.5)%float then 7
  else if (h =? 6)%float then 12
  else if (h =? 12)%float then 24
  else if (h =? 28)%float then 56
  else if (h =? 70)%float then 140
  else 0.

(** The half hours of a breakdown, summed exactly. *)
Definition breakdown_halves (breakdown : list (EntityEstimate float)) : Z :=
  foldr (fun estimate total => (halves_of_hours (hours estimate) + total)%Z) 0%Z breakdown.

(** The number of entity records under the category keys of an inventory. *)
Definition entity_count (entities : gmap string (list (gmap string string))) : nat :=
  length (entity_type_map ≫= (fun item : string * string => default [] (entities !! item.1))).

(** An hour value that is a whole number of half hours, at most 70 hours. *)
Definition half_hours (h : float) : Prop :=
  (0 <= halves_of_hours h <= 140)%Z /\ h = float_halves (halves_of_hours h).


(** The nine entity types of the estimation table. *)
Definition entity_types : list string := entity_type_map.*2.

(** What the grouping loop keeps true of [by_type] after the entities
    [seen]. *)
Definition grouped {num} (seen : list (EntityEstimate num))
    (by_type : list (string * list (EntityEstimate num))) : Prop :=
  NoDup by_type.*1
  /\ (forall t entities, (t, entities) ∈ by_type ->
        entities <> [] /\ entities = filter (fun e => type e = t) seen)
  /\ (forall e, e ∈ seen -> type e ∈ by_type.*1)
  /\ concat by_type.*2 ≡ₚ seen.



(** What the report shows under "Migration Effort": the node count, the
    complexity as supplied and the hours, or [None] for "No migration
    required." *)
Definition migration_section {num} (data : entities_data num) (hours : num)
  : option (Z * string * num) :=
  let migration := default no_migration (get_migration data) in
  if negb (is_empty_config migration) && (0 <? default 0 (get_nodes migration))%Z
  then Some (default 0%Z (get_nodes migration),
             default "medium" (get_mig_complexity migration),
             hours)
  else None.


(** * Properties *)

(** ** Loops *)


(** A loop whose body is a pure step never raises and is a left fold. *)
Lemma for_each_pure {S A} (f : S -> A -> exc S) (step : S -> A -> S) (xs : list A) (st : S) :
  (forall s x, x ∈ xs -> f s x = Ok (step s x)) ->
  for_each f st xs = Ok (foldl step st xs).
Proof.
  revert st. induction xs as [|x xs IH]; intros st Hf; [done|].
  cbn. rewrite (Hf st x) by left. cbn.
  apply IH. intros s y Hy. apply Hf. by right.
Qed.

(** ** Base hours *)

Section BaseHours.
Context {num : Type} `{Number num}.
Local Open Scope num_scope.

Lemma entity_types_known :
  Forall (fun item : string * string => is_Some (ESTIMATION_TABLE (num:=num) !! item.2))
         entity_type_map.
Proof. repeat constructor; vm_compute; eauto. Qed.

Lemma calculate_entity_hours_known (entity : gmap string string) (entity_type : string) :
  is_Some (ESTIMATION_TABLE (num:=num) !! entity_type) ->
  calculate_entity_hours entity entity_type = Ok (estimate_of entity_type entity).
Proof.
  intros [row Hrow]. unfold calculate_entity_hours, estimate_of.
  rewrite Hrow. done.
Qed.

Lemma calculate_entity_hours_unknown (entity : gmap string string) (entity_type : string) :
  ESTIMATION_TABLE (num:=num) !! entity_type = None ->
  calculate_entity_hours (num:=num) entity entity_type
  = Raise (ValueError ("Unknown entity type: " +:+ entity_type)).
Proof. intros Hrow. unfold calculate_entity_hours. by rewrite Hrow. Qed.

Lemma accumulate_hours_app (total : num) (xs ys : list (EntityEstimate num)) :
  accumulate_hours total (xs ++ ys) = accumulate_hours (accumulate_hours total xs) ys.
Proof. apply foldl_app. Qed.

Lemma add_entity_known (entity_type : string) (entity : gmap string string)
    (st : num * list (EntityEstimate num)) :
  is_Some (ESTIMATION_TABLE (num:=num) !! entity_type) ->
  add_entity entity_type st entity
  = Ok (st.1 + hours (estimate_of entity_type entity),
        st.2 ++ [estimate_of entity_type entity]).
Proof.
  intros Hknown. unfold add_entity.
  by rewrite calculate_entity_hours_known.
Qed.

Lemma add_entities_known (entity_type : string) (records : list (gmap string string))
    (st : num * list (EntityEstimate num)) :
  is_Some (ESTIMATION_TABLE (num:=num) !! entity_type) ->
  for_each (add_entity entity_type) st records
  = Ok (accumulate_hours st.1 (estimate_of entity_type <$> records),
        st.2 ++ (estimate_of entity_type <$> records)).
Proof.
  intros Hknown. revert st.
  induction records as [|entity records IH]; intros [total breakdown]; cbn [for_each].
  - cbn. by rewrite app_nil_r.
  - rewrite add_entity_known by done. cbn [mbind exc_bind].
    rewrite IH. cbn. by rewrite <- app_assoc.
Qed.

Lemma add_category_known (entities : gmap string (list (gmap string string)))
    (st : num * list (EntityEstimate num)) (item : string * string) :
  item ∈ entity_type_map ->
  add_category entities st item
  = Ok (accumulate_hours st.1 (category_breakdown entities item),
        st.2 ++ category_breakdown entities item).
Proof.
  intros Hitem. unfold add_category, category_breakdown.
  destruct (entities !! item.1) as [records|]; cbn.
  - apply add_entities_known.
    by apply (proj1 (Forall_forall _ _) entity_types_known).
  - rewrite app_nil_r. by destruct st.
Qed.

Lemma add_categories (entities : gmap string (list (gmap string string)))
    (items : list (string * string)) (st : num * list (EntityEstimate num)) :
  items ⊆ entity_type_map ->
  for_each (add_category entities) st items
  = Ok (accumulate_hours st.1 (items ≫= category_breakdown entities),
        st.2 ++ (items ≫= category_breakdown entities)).
Proof.
  revert st. induction items as [|item items IH]; intros [total breakdown] Hsub;
    cbn [for_each].
  - cbn. by rewrite app_nil_r.
  - rewrite add_category_known by (apply Hsub; left). cbn [mbind exc_bind].
    rewrite IH by (intros x Hx; apply Hsub; by right). cbn [fst snd].
    by rewrite bind_cons, accumulate_hours_app, <- app_assoc.
Qed.

(** [calculate_base_hours] as a pure function of the inventory. *)
Lemma calculate_base_hours_eq (entities : gmap string (list (gmap string string))) :
  calculate_base_hours entities
  = Ok (accumulate_hours (dec 0 1) (breakdown_of entities), breakdown_of entities).
Proof. unfold calculate_base_hours. by rewrite add_categories. Qed.

End BaseHours.

(** ** Unknown keys and unknown types *)

Section Categories.
Context {num : Type} `{Number num}.
Local Open Scope num_scope.







End Categories.



(** ** The stages of [calculate_estimate] *)

Section Stages.
Context {num : Type} `{Number num}.
Local Open Scope num_scope.




End Stages.

(** ** Exact arithmetic *)




(** ** Project management hours *)

(** The example of C3 as the script evaluates it: in binary64 the product
    [190.0 * 0.18] is the double just below 34.2, and so is the sum with 90
    just below 124.2. *)
Lemma pm_hours_example_binary64 :
  returns_with (calculate_estimate (num:=float) (inventory_only hundred_base_hours))
    (fun r =>
       base_hours r = 100%float
       /\ pm_hours_of r = 0x1.1199999999999p+5%float
       /\ next_up (pm_hours_of r) = (of_int 342 / of_int 10)%num
       /\ next_up (additional_hours r) = (of_int 1242 / of_int 10)%num).
Proof. vm_compute. done. Qed.


(** ** Migration hours *)

Section Migration.
Context {num : Type} `{Number num}.
Local Open Scope num_scope.




End Migration.


(** ** Assumptions and risks *)




(** ** The hours of one entity *)

Section EntityHours.
Context {num : Type} `{Number num}.
Local Open Scope num_scope.

Lemma tier_lookup (row : gmap string num) (complexity : string) (P : num -> Prop) :
  P (of_int 0) ->
  map_Forall (fun _ h => P h) row ->
  P (default (of_int 0) (row !! complexity)).
Proof.
  intros H0 Hrow.
  destruct (row !! complexity) as [h|] eqn:Hh; cbn; [|done].
  by apply (Hrow complexity).
Qed.

(** Every hour value that a lookup in the estimation table can give is one
    of the table's constants, or the fallback 0. *)
Lemma table_hours_ind (P : num -> Prop) :
  P (of_int 0) -> P (of_int 3) -> P (of_int 6) -> P (of_int 12) ->
  P (of_int 28) -> P (of_int 70) -> P (dec 15 1) -> P (dec 35 1) ->
  forall entity_type complexity : string,
    P (default (of_int 0) (ESTIMATION_TABLE !! entity_type ≫= (.!! complexity))).
Proof.
  intros H0 H3 H6 H12 H28 H70 H15 H35 entity_type complexity.
  destruct (ESTIMATION_TABLE !! entity_type) as [row|] eqn:Hrow; cbn; [|done].
  apply elem_of_list_to_map_2 in Hrow.
  repeat (apply elem_of_cons in Hrow as [Hrow|Hrow];
          [injection Hrow as -> ->; apply tier_lookup; [done|];
           repeat (apply map_Forall_insert_2; [done|]); apply map_Forall_empty|]).
  by apply elem_of_nil in Hrow.
Qed.

(** A complexity outside the three tiers is in no row of the table. *)
Lemma unknown_tier_lookup (entity_type complexity : string) :
  complexity ∉ complexity_tiers ->
  ESTIMATION_TABLE (num:=num) !! entity_type ≫= (.!! complexity) = None.
Proof.
  intros Htier.
  apply not_elem_of_cons in Htier as [Hs Htier].
  apply not_elem_of_cons in Htier as [Hm Htier].
  apply not_elem_of_cons in Htier as [Hc _].
  destruct (ESTIMATION_TABLE !! entity_type) as [row|] eqn:Hrow; cbn; [|done].
  apply elem_of_list_to_map_2 in Hrow.
  repeat (apply elem_of_cons in Hrow as [Hrow|Hrow];
          [injection Hrow as -> ->;
           rewrite !lookup_insert_ne by done; apply lookup_empty|]).
  by apply elem_of_nil in Hrow.
Qed.

Lemma breakdown_of_hours (entities : gmap string (list (gmap string string)))
    (P : num -> Prop) :
  (forall entity_type complexity : string,
     P (default (of_int 0) (ESTIMATION_TABLE !! entity_type ≫= (.!! complexity)))) ->
  Forall (fun estimate => P (hours estimate)) (breakdown_of entities).
Proof.
  intros HP. unfold breakdown_of. apply Forall_forall. intros estimate Hin.
  apply list_elem_of_bind in Hin as (item & Hin & _).
  unfold category_breakdown in Hin.
  apply list_elem_of_fmap in Hin as (entity & -> & _). apply HP.
Qed.

End EntityHours.

(** C6.  An entity of a recognised category whose complexity, lower-cased,
    is none of simple, medium, complex gets 0 hours and raises nothing; and
    in every breakdown that [calculate_base_hours] returns every entity has
    hours [>= 0]. *)
Theorem unknown_complexity_costs_nothing :
  (forall (entity : gmap string string) (item : string * string),
     item ∈ entity_type_map ->
     lower (default "medium" (entity !! "complexity")) ∉ complexity_tiers ->
     calculate_entity_hours (num:=float) entity item.2
     = Ok {| name := default "Unknown" (entity !! "name");
             type := item.2;
             complexity := lower (default "medium" (entity !! "complexity"));
             hours := of_int 0 |})
  /\ (forall entities : gmap string (list (gmap string string)),
        returns_with (calculate_base_hours (num:=float) entities) (fun result =>
          Forall (fun estimate => (of_int 0 <=? hours estimate)%num = true) result.2)).
Proof.
  split.
  - intros entity item Hitem Htier.
    rewrite calculate_entity_hours_known
      by apply (proj1 (Forall_forall _ _) entity_types_known _ Hitem).
    unfold estimate_of. by rewrite unknown_tier_lookup.
  - intros entities. rewrite calculate_base_hours_eq. cbn [returns_with snd].
    apply (breakdown_of_hours entities (fun h => (of_int 0 <=? h)%num = true)).
    by apply (table_hours_ind (fun h => (of_int 0 <=? h)%num = true)).
Qed.

Lemma unknown_complexity_costs_nothing_witness :
  returns_with
    (calculate_entity_hours (num:=float) legendary_entity "content_type")
    (fun estimate => hours estimate = 0%float /\ complexity estimate = "legendary").
Proof.
  assert (Hitem : ("content_types", "content_type") ∈ entity_type_map) by (by left).
  assert (Htier : lower (default "medium" (legendary_entity !! "complexity"))
                  ∉ complexity_tiers).
  { apply (bool_decide_unpack _). vm_compute. exact I. }
  pose proof (proj1 unknown_complexity_costs_nothing legendary_entity
                ("content_types", "content_type") Hitem Htier) as Hzero.
  cbn [snd] in Hzero. rewrite Hzero.
  split; reflexivity.
Defined.

(** ** The formatter *)

Section Formatting.
Context {num : Type} `{Number num}.
Local Open Scope num_scope.

Lemma percent_of_zero (x total : num) :
  (total == of_int 0) = true -> percent_of x total = Raise ZeroDivisionError.
Proof. intros Hz. unfold percent_of, true_div. by rewrite Hz. Qed.

Lemma percent_of_nonzero (x total : num) :
  (total == of_int 0) = false -> percent_of x total = Ok (x / total * of_int 100).
Proof. intros Hz. unfold percent_of, true_div. by rewrite Hz. Qed.

Lemma multiplier_row_nonzero (base : num) (rows : list (string * num * num))
    (item : string * num) :
  (base == of_int 0) = false ->
  multiplier_row base rows item
  = Ok (rows ++ [(item.1, item.2 / base * of_int 100, item.2)]).
Proof. intros Hz. unfold multiplier_row. by rewrite percent_of_nonzero. Qed.

Lemma multiplier_row_zero (base : num) (rows : list (string * num * num))
    (item : string * num) :
  (base == of_int 0) = true ->
  multiplier_row base rows item = Raise ZeroDivisionError.
Proof. intros Hz. unfold multiplier_row. by rewrite percent_of_zero. Qed.

Lemma multiplier_rows_nonzero (base : num) (items : list (string * num))
    (rows : list (string * num * num)) :
  (base == of_int 0) = false ->
  returns (for_each (multiplier_row base) rows items).
Proof.
  intros Hz. revert rows. induction items as [|item items IH]; intros rows.
  - by eexists.
  - cbn [for_each]. rewrite multiplier_row_nonzero by done.
    cbn [mbind exc_bind]. apply IH.
Qed.

Lemma multiplier_rows_zero (base : num) (items : list (string * num))
    (rows : list (string * num * num)) :
  (base == of_int 0) = true -> items <> [] ->
  for_each (multiplier_row base) rows items = Raise ZeroDivisionError.
Proof.
  intros Hz Hitems. destruct items as [|item items]; [done|].
  cbn [for_each]. by rewrite multiplier_row_zero.
Qed.

(** When the formatter raises and when it returns. *)
Lemma format_estimation_report_faults
    (result : EstimationResult num) (data : entities_data num) :
  if divides_by_zero result
  then format_estimation_report result data = Raise ZeroDivisionError
  else returns (format_estimation_report result data).
Proof.
  unfold divides_by_zero, format_estimation_report.
  destruct (total_hours result == of_int 0) eqn:Htotal; cbn [orb].
  { rewrite (percent_of_zero (base_hours result)) by done. reflexivity. }
  rewrite !percent_of_nonzero by done. cbn [mbind exc_bind].
  destruct (base_hours result == of_int 0) eqn:Hbase; cbn [andb].
  - case_bool_decide as Hnil; cbn [negb].
    + rewrite Hnil. cbn. by eexists.
    + rewrite multiplier_rows_zero by done. reflexivity.
  - destruct (multiplier_rows_nonzero (base_hours result)
                (multipliers_applied result) [] Hbase) as [rows ->].
    cbn. by eexists.
Qed.

End Formatting.

(** C5, the claim as stated fails: with no entities and one multiplier the
    estimate has [base_hours] 0.0 and [total_hours] 127.44, and formatting
    it raises [ZeroDivisionError] at the multiplier's percentage
    [hours / base_hours]. *)
Lemma zero_base_hours_fault :
  returns_with (calculate_estimate (num:=float) multipliers_without_entities) (fun r =>
    base_hours r = 0%float /\ multipliers_applied r = [("testing", 0%float)])
  /\ estimate_and_format (num:=float) multipliers_without_entities
     = Raise ZeroDivisionError.
Proof. split; vm_compute; done. Qed.

(** C5, as amended.  The formatter has no guard: it raises
    [ZeroDivisionError], and produces no report, when [total_hours] is zero
    and when [base_hours] is zero with a multiplier to print; in every other
    case it returns a report.  An empty inventory with no multipliers is such
    a case: its report shows 0.0 base hours at 0.0 percent. *)
Theorem formatter_division_faults :
  (forall (result : EstimationResult float) (data : entities_data float),
     if divides_by_zero result
     then format_estimation_report result data = Raise ZeroDivisionError
     else returns (format_estimation_report result data))
  /\ returns_with (estimate_and_format (num:=float) (inventory_only ∅)) (fun report =>
       head (rp_summary report) = Some ("Base Hours (Entities)", 0%float, 0%float)
       /\ rp_multipliers report = []).
Proof.
  split; [apply format_estimation_report_faults|].
  vm_compute. done.
Qed.

(** ** Reordering the inventory *)



Lemma category_breakdown_Permutation {num} `{Number num}
    (entities entities' : gmap string (list (gmap string string))) (item : string * string) :
  reordered entities entities' ->
  category_breakdown (num:=num) entities item ≡ₚ category_breakdown entities' item.
Proof.
  intros Hre. unfold category_breakdown.
  destruct (Hre item.1) as [records records' Hperm|]; cbn; [|done].
  by apply fmap_Permutation.
Qed.

Lemma breakdown_of_Permutation {num} `{Number num}
    (entities entities' : gmap string (list (gmap string string))) :
  reordered entities entities' ->
  breakdown_of (num:=num) entities ≡ₚ breakdown_of entities'.
Proof.
  intros Hre. unfold breakdown_of.
  induction entity_type_map as [|item items IH]; [done|].
  rewrite !bind_cons. apply Permutation_app; [|done].
  by apply category_breakdown_Permutation.
Qed.

Lemma reordered_insert (entities : gmap string (list (gmap string string)))
    (key : string) (records records' : list (gmap string string)) :
  records ≡ₚ records' ->
  reordered (<[key := records]> entities) (<[key := records']> entities).
Proof.
  intros Hperm key'. destruct (decide (key = key')) as [->|Hne].
  - rewrite !lookup_insert_eq. by constructor.
  - rewrite !lookup_insert_ne by done.
    destruct (entities !! key'); by constructor.
Qed.



(** ** Signs, in exact arithmetic *)













(** * Further properties *)

(** ** binary64 sums of half-integers *)

Section Binary64Halves.
Local Open Scope Z_scope.

Lemma digits2_pos_log2 (p : positive) : Zpos (digits2_pos p) = Z.log2 (Zpos p) + 1.
Proof.
  induction p as [p IH|p IH|]; cbn [digits2_pos].
  - rewrite Pos2Z.inj_succ, IH.
    change (Zpos p~1) with (2 * Zpos p + 1). rewrite Z.log2_succ_double by lia. lia.
  - rewrite Pos2Z.inj_succ, IH.
    change (Zpos p~0) with (2 * Zpos p). rewrite Z.log2_double by lia. lia.
  - reflexivity.
Qed.

Lemma iter_pos_nat {A} (f : A -> A) (p : positive) (x : A) :
  SpecFloat.iter_pos f p x = Nat.iter (Pos.to_nat p) f x.
Proof.
  revert x. induction p as [p IH|p IH|]; intros x; cbn [SpecFloat.iter_pos].
  - rewrite !IH, Pos2Nat.inj_xI.
    replace (S (2 * Pos.to_nat p))%nat with (Pos.to_nat p + (Pos.to_nat p + 1))%nat by lia.
    rewrite !Nat.iter_add. cbn. reflexivity.
  - rewrite !IH, Pos2Nat.inj_xO.
    replace (2 * Pos.to_nat p)%nat with (Pos.to_nat p + Pos.to_nat p)%nat by lia.
    rewrite Nat.iter_add. reflexivity.
  - reflexivity.
Qed.


Lemma shr_1_exact (m : Z) : 0 < m -> shr_1 (exact_record (2 * m)) = exact_record m.
Proof. intros Hm. destruct m as [|q|q]; try lia. reflexivity. Qed.

Lemma iter_shr_1_exact (k : nat) (m : Z) :
  0 < m -> Nat.iter k shr_1 (exact_record (m * 2 ^ Z.of_nat k)) = exact_record m.
Proof.
  intros Hm. induction k as [|k IH].
  - cbn [Nat.iter Z.of_nat]. rewrite Z.pow_0_r, Z.mul_1_r. reflexivity.
  - rewrite Nat.iter_succ_r.
    replace (m * 2 ^ Z.of_nat (S k)) with (2 * (m * 2 ^ Z.of_nat k))
      by (rewrite Nat2Z.inj_succ, Z.pow_succ_r by lia; lia).
    rewrite shr_1_exact by (apply Z.mul_pos_pos; [lia|apply Z.pow_pos_nonneg; lia]).
    exact IH.
Qed.

(** Shifting right by [n] an integer that is a multiple of [2^n]. *)
Lemma shr_exact (m e n : Z) :
  0 < m -> 0 <= n ->
  shr (exact_record (m * 2 ^ n)) e n = (exact_record m, e + n).
Proof.
  intros Hm Hn. unfold shr. destruct n as [|p|p]; try lia.
  - rewrite Z.pow_0_r, Z.mul_1_r, Z.add_0_r. reflexivity.
  - rewrite iter_pos_nat. rewrite <- (positive_nat_Z p) at 1.
    rewrite iter_shr_1_exact by lia. reflexivity.
Qed.

Lemma shl_align_spec (mx : positive) (ex ex' : Z) :
  ex' <= ex ->
  let (m, e) := shl_align mx ex ex' in
  Zpos m = Zpos mx * 2 ^ (ex - ex') /\ (e = ex' \/ (ex' = ex /\ e = ex)).
Proof.
  intros Hle. unfold shl_align.
  destruct (ex' - ex) as [|d|d] eqn:Hd; try lia.
  - replace (ex - ex') with 0 by lia. split; [lia|right; lia].
  - split; [|left; reflexivity].
    replace (ex - ex') with (Zpos d) by lia.
    clear. induction d as [|d IH] using Pos.peano_ind.
    + cbn [Pos.iter]. change (2 ^ 1) with 2. lia.
    + rewrite Pos.iter_succ, Pos2Z.inj_succ, Z.pow_succ_r by lia.
      change (Zpos (xO (Pos.iter xO mx d))) with (2 * Zpos (Pos.iter xO mx d)).
      rewrite IH. lia.
Qed.

Lemma fexp_small (x : Z) : -1021 <= x -> fexp prec emax x = x - 53.
Proof. intros Hx. unfold fexp, emin, prec, emax. lia. Qed.

Lemma Zdigits2_log2 (m : Z) : 0 < m -> Zdigits2 m = Z.log2 m + 1.
Proof. intros Hm. destruct m as [|p|p]; try lia. apply digits2_pos_log2. Qed.

Lemma log2_shift (m k : Z) : 0 < m -> 0 <= k -> Z.log2 (m * 2 ^ k) = Z.log2 m + k.
Proof. intros Hm Hk. rewrite Z.log2_mul_pow2 by lia. lia. Qed.

(** Rounding an integer whose low bits, those below the target exponent,
    are all zero: nothing is lost. *)
Lemma binary_round_aux_exact (m e n : Z) :
  0 < m -> 0 <= n ->
  fexp prec emax (Zdigits2 (m * 2 ^ n) + e) = e + n ->
  e + n <= emax - prec ->
  binary_round_aux prec emax false (m * 2 ^ n) e loc_Exact
  = S754_finite false (Z.to_pos m) (e + n).
Proof.
  intros Hm Hn Hfexp Hmax. unfold binary_round_aux, shr_fexp.
  rewrite Hfexp. replace (e + n - e) with n by lia.
  change (shr_record_of_loc (m * 2 ^ n) loc_Exact) with (exact_record (m * 2 ^ n)).
  rewrite shr_exact by lia.
  change (loc_of_shr_record (exact_record m)) with loc_Exact.
  cbn [round_nearest_even shr_m exact_record].
  assert (Hdig : Zdigits2 m + (e + n) = Zdigits2 (m * 2 ^ n) + e).
  { rewrite !Zdigits2_log2, log2_shift by (try apply Z.mul_pos_pos; try apply Z.pow_pos_nonneg; lia).
    lia. }
  rewrite Hdig, Hfexp. replace (e + n - (e + n)) with 0 by lia.
  change (shr_record_of_loc m loc_Exact) with (exact_record m).
  cbn [shr shr_m exact_record].
  destruct m as [|p|p]; try lia.
  cbn [Z.to_pos]. apply Z.leb_le in Hmax. rewrite Hmax. reflexivity.
Qed.


Lemma log2_bound (x : Z) : 0 < x < 2 ^ 53 -> 0 <= Z.log2 x <= 52.
Proof.
  intros Hx. split; [apply Z.log2_nonneg|].
  assert (Z.log2 x < 53) by (apply Z.log2_lt_pow2; lia). lia.
Qed.

(** Any integer representation [M * 2^e] of [x / 2] rounds to [canonical_halves x]. *)
Lemma binary_round_halves (x : Z) (M : positive) (e : Z) :
  0 < x < 2 ^ 53 -> -1000 <= e <= -1 -> Zpos M = x * 2 ^ (-1 - e) ->
  binary_round prec emax false M e = canonical_halves x.
Proof.
  intros Hx He HM. pose proof (log2_bound x Hx) as Hlog.
  assert (Hdig : Zpos (digits2_pos M) + e = Z.log2 x).
  { rewrite digits2_pos_log2, HM, log2_shift by lia. lia. }
  unfold binary_round. rewrite Hdig, fexp_small by lia.
  destruct (Z_le_gt_dec (Z.log2 x - 53) e) as [Hle|Hgt].
  - (* the target exponent is below [e]: align to it *)
    pose proof (shl_align_spec M e (Z.log2 x - 53) Hle) as Hal.
    destruct (shl_align M e (Z.log2 x - 53)) as [m e'].
    destruct Hal as [Hm He'].
    assert (Hm' : Zpos m = x * 2 ^ (52 - Z.log2 x)).
    { rewrite Hm, HM, <- Z.mul_assoc, <- Z.pow_add_r by lia. f_equal. f_equal. lia. }
    assert (He'' : e' = Z.log2 x - 53) by lia. subst e'.
    pose proof (binary_round_aux_exact (Zpos m) (Z.log2 x - 53) 0) as Hr.
    rewrite Z.pow_0_r, Z.mul_1_r, Z.add_0_r in Hr.
    rewrite Hr; [unfold canonical_halves; by rewrite <- Hm'|lia|lia| |unfold emax, prec; lia].
    rewrite Zdigits2_log2, Hm', log2_shift, fexp_small by lia. lia.
  - (* the target exponent is above [e]: the low bits are zero *)
    unfold shl_align.
    destruct (Z.log2 x - 53 - e) as [|d|d] eqn:Hd; try lia.
    pose proof (binary_round_aux_exact (x * 2 ^ (52 - Z.log2 x)) e (Zpos d)) as Hr.
    assert (HM' : Zpos M = x * 2 ^ (52 - Z.log2 x) * 2 ^ Zpos d).
    { rewrite HM, <- Z.mul_assoc, <- Z.pow_add_r by lia. f_equal. f_equal. lia. }
    rewrite <- HM' in Hr.
    rewrite Hr; [unfold canonical_halves; f_equal; lia| | lia | |unfold emax, prec; lia].
    + apply Z.mul_pos_pos; [lia|apply Z.pow_pos_nonneg; lia].
    + cbn [Zdigits2]. rewrite Hdig, fexp_small by lia. lia.
Qed.


Lemma SF_halves_pos (x : Z) : 0 < x < 2 ^ 53 -> SF_halves x = canonical_halves x.
Proof.
  intros Hx. unfold SF_halves, binary_normalize. destruct x as [|p|p]; try lia.
  apply binary_round_halves; [done|lia|]. rewrite Z.pow_0_r. lia.
Qed.

Lemma canon_mantissa (x : Z) :
  0 < x < 2 ^ 53 -> 0 < x * 2 ^ (52 - Z.log2 x).
Proof.
  intros Hx. pose proof (log2_bound x Hx).
  apply Z.mul_pos_pos; [lia|apply Z.pow_pos_nonneg; lia].
Qed.

Lemma canon_valid (x : Z) : 0 < x < 2 ^ 53 -> valid_binary (canonical_halves x) = true.
Proof.
  intros Hx. pose proof (log2_bound x Hx) as Hlog.
  pose proof (canon_mantissa x Hx) as Hm.
  unfold canonical_halves, SpecFloat.valid_binary, bounded, canonical_mantissa.
  apply andb_true_intro. split.
  - apply Z.eqb_eq. rewrite digits2_pos_log2, Z2Pos.id, log2_shift, fexp_small by lia. lia.
  - apply Z.leb_le. unfold emax, prec. lia.
Qed.

Lemma SF_halves_valid (x : Z) : 0 <= x < 2 ^ 53 -> valid_binary (SF_halves x) = true.
Proof.
  intros Hx. destruct (decide (x = 0)) as [->|Hne]; [done|].
  rewrite SF_halves_pos by lia. apply canon_valid. lia.
Qed.

(** Adding two canonical values whose sum is below [2^53] is exact. *)
Lemma SFadd_canon (a b : Z) :
  0 < a -> 0 < b -> a + b < 2 ^ 53 ->
  SFadd prec emax (canonical_halves a) (canonical_halves b) = canonical_halves (a + b).
Proof.
  intros Ha Hb Hab.
  pose proof (log2_bound a ltac:(lia)) as Hla.
  pose proof (log2_bound b ltac:(lia)) as Hlb.
  pose proof (canon_mantissa a ltac:(lia)) as Hma.
  pose proof (canon_mantissa b ltac:(lia)) as Hmb.
  unfold canonical_halves at 1 2. cbn [SFadd cond_Zopp].
  set (ma := Z.to_pos (a * 2 ^ (52 - Z.log2 a))).
  set (mb := Z.to_pos (b * 2 ^ (52 - Z.log2 b))).
  set (ez := Z.min (Z.log2 a - 53) (Z.log2 b - 53)).
  pose proof (shl_align_spec ma (Z.log2 a - 53) ez ltac:(lia)) as Hsa.
  pose proof (shl_align_spec mb (Z.log2 b - 53) ez ltac:(lia)) as Hsb.
  destruct (shl_align ma (Z.log2 a - 53) ez) as [ma' ea'].
  destruct (shl_align mb (Z.log2 b - 53) ez) as [mb' eb'].
  destruct Hsa as [Hsa _]. destruct Hsb as [Hsb _]. cbn [fst].
  assert (Ha' : Zpos ma' = a * 2 ^ (-1 - ez)).
  { rewrite Hsa. unfold ma. rewrite Z2Pos.id by lia.
    rewrite <- Z.mul_assoc, <- Z.pow_add_r by lia. f_equal. f_equal. lia. }
  assert (Hb' : Zpos mb' = b * 2 ^ (-1 - ez)).
  { rewrite Hsb. unfold mb. rewrite Z2Pos.id by lia.
    rewrite <- Z.mul_assoc, <- Z.pow_add_r by lia. f_equal. f_equal. lia. }
  change (Zpos ma' + Zpos mb') with (Zpos (ma' + mb')).
  cbn [binary_normalize].
  apply binary_round_halves; [lia|unfold ez; lia|].
  rewrite Pos2Z.inj_add, Ha', Hb'. ring.
Qed.

Lemma SFadd_halves (a b : Z) :
  0 <= a -> 0 <= b -> a + b < 2 ^ 53 ->
  SFadd prec emax (SF_halves a) (SF_halves b) = SF_halves (a + b).
Proof.
  intros Ha Hb Hab.
  destruct (decide (a = 0)) as [->|Hna]; destruct (decide (b = 0)) as [->|Hnb].
  - reflexivity.
  - rewrite Z.add_0_l, (SF_halves_pos b) by lia. reflexivity.
  - rewrite Z.add_0_r, (SF_halves_pos a) by lia. reflexivity.
  - rewrite !SF_halves_pos by lia. apply SFadd_canon; lia.
Qed.

(** binary64 addition of two non-negative half-integers with a sum below
    [2^52] is exact. *)
Lemma float_halves_add (a b : Z) :
  0 <= a -> 0 <= b -> a + b < 2 ^ 53 ->
  (float_halves a + float_halves b)%float = float_halves (a + b).
Proof.
  intros Ha Hb Hab. unfold float_halves.
  rewrite <- (SF2Prim_Prim2SF (SF2Prim (SF_halves a) + SF2Prim (SF_halves b))).
  rewrite add_spec, !Prim2SF_SF2Prim by (apply SF_halves_valid; lia).
  f_equal. apply SFadd_halves; lia.
Qed.

End Binary64Halves.

(** ** Base hours in binary64 *)

Section Binary64BaseHours.
Local Open Scope Z_scope.

Lemma table_hours_half_hours (entity_type complexity : string) :
  half_hours (default (of_int 0)
                (ESTIMATION_TABLE (num:=float) !! entity_type ≫= (.!! complexity))).
Proof. apply (table_hours_ind half_hours); by vm_compute. Qed.

Lemma accumulate_hours_cons {num} `{Number num} (total : num)
    (estimate : EntityEstimate num) (breakdown : list (EntityEstimate num)) :
  accumulate_hours total (estimate :: breakdown)
  = accumulate_hours (add total (hours estimate)) breakdown.
Proof. reflexivity. Qed.

Lemma breakdown_halves_cons (estimate : EntityEstimate float)
    (breakdown : list (EntityEstimate float)) :
  breakdown_halves (estimate :: breakdown)
  = halves_of_hours (hours estimate) + breakdown_halves breakdown.
Proof. reflexivity. Qed.

Lemma breakdown_halves_bounds (breakdown : list (EntityEstimate float)) :
  Forall (fun estimate => half_hours (hours estimate)) breakdown ->
  0 <= breakdown_halves breakdown <= 140 * Z.of_nat (length breakdown).
Proof.
  induction 1 as [|estimate breakdown [Hh _] _ IH].
  - cbn. lia.
  - rewrite breakdown_halves_cons, length_cons. lia.
Qed.

(** Below [2^53] half hours the running total loses nothing: it is the
    exact sum. *)
Lemma accumulate_hours_exact (breakdown : list (EntityEstimate float)) (n : Z) :
  Forall (fun estimate => half_hours (hours estimate)) breakdown ->
  0 <= n -> n + 140 * Z.of_nat (length breakdown) < 2 ^ 53 ->
  accumulate_hours (float_halves n) breakdown
  = float_halves (n + breakdown_halves breakdown).
Proof.
  intros Hall. revert n.
  induction Hall as [|estimate breakdown [Hh Heq] Hall IH]; intros n Hn Hbound.
  - cbn. by rewrite Z.add_0_r.
  - rewrite accumulate_hours_cons, breakdown_halves_cons, length_cons in *.
    pose proof (breakdown_halves_bounds breakdown Hall) as Hsum.
    rewrite Heq at 1.
    change (add (float_halves n) (float_halves (halves_of_hours (hours estimate))))
      with (float_halves n + float_halves (halves_of_hours (hours estimate)))%float.
    rewrite float_halves_add by lia.
    rewrite IH by lia. f_equal. lia.
Qed.

Lemma breakdown_halves_Permutation (xs ys : list (EntityEstimate float)) :
  xs ≡ₚ ys -> breakdown_halves xs = breakdown_halves ys.
Proof.
  unfold breakdown_halves.
  induction 1 as [|x xs ys _ IH|x y xs|xs ys zs _ IH1 _ IH2]; cbn; lia.
Qed.

Lemma entity_count_breakdown {num} `{Number num}
    (entities : gmap string (list (gmap string string))) :
  length (breakdown_of (num:=num) entities) = entity_count entities.
Proof.
  unfold breakdown_of, entity_count, category_breakdown.
  induction entity_type_map as [|item items IH]; [done|].
  by rewrite !bind_cons, !length_app, length_fmap, IH.
Qed.

(** The binary64 base hours are the exact sum of the table values, for
    every inventory of fewer than [2^45] entities. *)
Lemma base_hours_binary64_exact (entities : gmap string (list (gmap string string))) :
  Z.of_nat (entity_count entities) < 2 ^ 45 ->
  accumulate_hours (num:=float) (dec 0 1) (breakdown_of entities)
  = float_halves (breakdown_halves (breakdown_of entities)).
Proof.
  intros Hcount.
  change (dec (num:=float) 0 1) with (float_halves 0).
  rewrite accumulate_hours_exact; [done| |lia|].
  - apply (breakdown_of_hours entities half_hours), table_hours_half_hours.
  - rewrite entity_count_breakdown.
    change (2 ^ 53) with (256 * 2 ^ 45). lia.
Qed.

Lemma breakdown_halves_range (entities : gmap string (list (gmap string string))) :
  Z.of_nat (entity_count entities) < 2 ^ 45 ->
  0 <= breakdown_halves (breakdown_of (num:=float) entities) < 2 ^ 53.
Proof.
  intros Hcount.
  pose proof (breakdown_halves_bounds (breakdown_of entities)
                (breakdown_of_hours entities half_hours table_hours_half_hours)) as Hb.
  rewrite entity_count_breakdown in Hb.
  change (2 ^ 53) with (256 * 2 ^ 45). lia.
Qed.

Lemma float_halves_nonneg (n : Z) :
  0 <= n < 2 ^ 53 -> (0 <=? float_halves n)%float = true.
Proof.
  intros Hn. rewrite leb_spec. unfold float_halves.
  rewrite Prim2SF_SF2Prim by (by apply SF_halves_valid).
  destruct (decide (n = 0)) as [->|Hne]; [done|].
  by rewrite SF_halves_pos by lia.
Qed.

Lemma entity_count_reordered (entities entities' : gmap string (list (gmap string string))) :
  reordered entities entities' -> entity_count entities = entity_count entities'.
Proof.
  intros Hre. rewrite <- !(entity_count_breakdown (num:=float)).
  by apply Permutation_length, breakdown_of_Permutation.
Qed.

End Binary64BaseHours.

(** X1.  In binary64, for every inventory of fewer than [2^45] entity
    records, the base hours that [calculate_base_hours] returns are the
    exact sum of the hours of its breakdown: a whole number of half hours,
    computed without any rounding, and [>= 0]. *)
Theorem base_hours_binary64_no_rounding
    (entities : gmap string (list (gmap string string))) :
  (Z.of_nat (entity_count entities) < 2 ^ 45)%Z ->
  returns_with (calculate_base_hours (num:=float) entities) (fun result =>
    result.1 = float_halves (breakdown_halves result.2)
    /\ (0 <= breakdown_halves result.2 <= 140 * Z.of_nat (entity_count entities))%Z
    /\ (0 <=? result.1)%float = true).
Proof.
  intros Hcount. rewrite calculate_base_hours_eq. cbn [returns_with fst snd].
  pose proof (breakdown_halves_range entities Hcount) as Hrange.
  pose proof (breakdown_halves_bounds (breakdown_of entities)
                (breakdown_of_hours entities half_hours table_hours_half_hours)) as Hb.
  rewrite entity_count_breakdown in Hb.
  rewrite base_hours_binary64_exact by done.
  split; [done|]. split; [done|]. by apply float_halves_nonneg.
Qed.

Lemma base_hours_binary64_no_rounding_witness :
  returns_with (calculate_base_hours (num:=float) three_content_types) (fun result =>
    result.1 = float_halves (breakdown_halves result.2)).
Proof.
  assert (Hcount : (Z.of_nat (entity_count three_content_types) < 2 ^ 45)%Z)
    by (by vm_compute).
  pose proof (base_hours_binary64_no_rounding three_content_types Hcount) as Hw.
  unfold returns_with in *.
  destruct (calculate_base_hours three_content_types) as [result|]; [|done].
  by destruct Hw as [Hw _].
Defined.

(** X2.  In binary64, two inventories of fewer than [2^45] entity records
    that differ only in the order of the records within their sequences have
    bit-identical base hours. *)
Theorem base_hours_binary64_reorder_invariant
    (entities entities' : gmap string (list (gmap string string))) :
  reordered entities entities' ->
  (Z.of_nat (entity_count entities) < 2 ^ 45)%Z ->
  returns_with (calculate_base_hours (num:=float) entities) (fun result =>
    returns_with (calculate_base_hours (num:=float) entities') (fun result' =>
      result.1 = result'.1)).
Proof.
  intros Hre Hcount. rewrite !calculate_base_hours_eq. cbn [returns_with fst].
  rewrite !base_hours_binary64_exact
    by (try rewrite <- (entity_count_reordered _ _ Hre); done).
  f_equal. by apply breakdown_halves_Permutation, breakdown_of_Permutation.
Qed.

Lemma base_hours_binary64_reorder_invariant_witness :
  returns_with (calculate_base_hours (num:=float) three_content_types) (fun result =>
    returns_with (calculate_base_hours (num:=float) three_content_types_reordered)
      (fun result' => result.1 = result'.1 /\ result.1 = 21%float)).
Proof.
  assert (Hre : reordered three_content_types three_content_types_reordered).
  { apply (reordered_insert ∅ "content_types").
    etrans; [|apply Permutation_swap]. apply Permutation_skip, Permutation_swap. }
  assert (Hcount : (Z.of_nat (entity_count three_content_types) < 2 ^ 45)%Z)
    by (by vm_compute).
  pose proof (base_hours_binary64_reorder_invariant _ _ Hre Hcount) as Hw.
  unfold returns_with in *.
  destruct (calculate_base_hours three_content_types) as [result|] eqn:Hr; [|done].
  destruct (calculate_base_hours three_content_types_reordered) as [result'|]; [|done].
  split; [exact Hw|]. by injection Hr as <-.
Defined.

(** ** Multipliers *)

Section Multipliers.
Context {num : Type} `{Number num}.
Local Open Scope num_scope.



End Multipliers.





(** ** [calculate_entity_hours] on its own *)

Lemma entity_types_table {num} `{Number num} (entity_type : string) :
  is_Some (ESTIMATION_TABLE (num:=num) !! entity_type) <-> entity_type ∈ entity_types.
Proof.
  split.
  - intros [row Hrow]. apply elem_of_list_to_map_2 in Hrow.
    repeat (apply elem_of_cons in Hrow as [Hrow|Hrow];
            [injection Hrow as -> _; apply (bool_decide_unpack _); by vm_compute|]).
    by apply elem_of_nil in Hrow.
  - intros Hin. apply list_elem_of_fmap in Hin as (item & -> & Hitem).
    by apply (proj1 (Forall_forall _ _) entity_types_known).
Qed.

(** X5.  [calculate_entity_hours] raises [ValueError], naming the type, for
    exactly the entity types outside the nine of the table, whatever the
    entity; for the nine it returns an estimate carrying that type. *)
Theorem entity_hours_raises_iff_unknown_type
    (entity : gmap string string) (entity_type : string) :
  (entity_type ∉ entity_types <->
   calculate_entity_hours (num:=float) entity entity_type
   = Raise (ValueError ("Unknown entity type: " +:+ entity_type)))
  /\ (entity_type ∈ entity_types <->
      returns_with (calculate_entity_hours (num:=float) entity entity_type)
        (fun estimate => type estimate = entity_type)).
Proof.
  destruct (ESTIMATION_TABLE (num:=float) !! entity_type) as [row|] eqn:Hrow.
  - assert (Hin : entity_type ∈ entity_types).
    { apply (entity_types_table (num:=float)). by eexists. }
    rewrite calculate_entity_hours_known by (by eexists).
    unfold returns_with, estimate_of. cbn [type]. split; split.
    + intros Hnot. by destruct Hnot.
    + intros Heq. discriminate Heq.
    + done.
    + done.
  - assert (Hnot : entity_type ∉ entity_types).
    { intros Hin. apply (entity_types_table (num:=float)) in Hin as [row' Hrow'].
      congruence. }
    rewrite calculate_entity_hours_unknown by done.
    unfold returns_with. split; split.
    + done.
    + done.
    + intros Hin. by destruct Hnot.
    + intros [].
Qed.

(** ** The breakdown table of the report *)

Section BreakdownTable.
Context {num : Type} `{Number num}.

(** The groups [format_breakdown_table] builds before it prints them. *)
Lemma group_append_keys (entity : EntityEstimate num)
    (by_type : list (string * list (EntityEstimate num))) :
  (group_append entity by_type).*1
  = if decide (type entity ∈ by_type.*1) then by_type.*1
    else by_type.*1 ++ [type entity].
Proof.
  induction by_type as [|[t entities] by_type IH]; cbn [group_append].
  - by rewrite decide_False by apply not_elem_of_nil.
  - destruct (String.eqb_spec t (type entity)) as [->|Hne]; cbn [fmap list_fmap fst].
    + rewrite decide_True by left. done.
    + cbn [fmap list_fmap fst] in IH. rewrite IH.
      destruct (decide (type entity ∈ by_type.*1)) as [Hin|Hnot].
      * rewrite decide_True by (by right). done.
      * rewrite decide_False; [done|].
        intros Hin'. apply elem_of_cons in Hin' as [Heq|Hin']; [by destruct Hne|done].
Qed.

Lemma group_append_rows (entity : EntityEstimate num)
    (by_type : list (string * list (EntityEstimate num)))
    (t : string) (entities : list (EntityEstimate num)) :
  NoDup by_type.*1 ->
  (t, entities) ∈ group_append entity by_type ->
  (t <> type entity /\ (t, entities) ∈ by_type)
  \/ (t = type entity
      /\ ((exists before, entities = before ++ [entity] /\ (t, before) ∈ by_type)
          \/ (entities = [entity] /\ t ∉ by_type.*1))).
Proof.
  induction by_type as [|[t' entities'] by_type IH]; cbn [group_append]; intros Hnd Hin.
  - apply list_elem_of_singleton in Hin. injection Hin as -> ->.
    right. split; [done|]. right. split; [done|]. apply not_elem_of_nil.
  - cbn [fmap list_fmap fst] in Hnd. apply NoDup_cons in Hnd as [Hfresh Hnd].
    destruct (String.eqb_spec t' (type entity)) as [->|Hne].
    + apply elem_of_cons in Hin as [Hin|Hin].
      * injection Hin as -> ->. right. split; [done|]. left.
        exists entities'. split; [done|]. left.
      * left. split; [|by right].
        intros ->. apply Hfresh.
        apply list_elem_of_fmap. by exists (type entity, entities).
    + apply elem_of_cons in Hin as [Hin|Hin].
      * injection Hin as -> ->. left. split; [done|]. left.
      * destruct (IH Hnd Hin) as [[Ht Hrow]|[-> [(before & -> & Hrow)|[-> Hnot]]]].
        -- left. split; [done|]. by right.
        -- right. split; [done|]. left. exists before. split; [done|]. by right.
        -- right. split; [done|]. right. split; [done|].
           cbn [fmap list_fmap fst]. intros Hin'.
           apply elem_of_cons in Hin' as [Heq|Hin']; [by destruct Hne|done].
Qed.

Lemma group_append_concat (entity : EntityEstimate num)
    (by_type : list (string * list (EntityEstimate num))) :
  concat (group_append entity by_type).*2 ≡ₚ concat by_type.*2 ++ [entity].
Proof.
  induction by_type as [|[t entities] by_type IH]; cbn [group_append].
  - by cbn.
  - destruct (String.eqb_spec t (type entity)) as [->|Hne]; cbn.
    + rewrite <- !app_assoc. apply Permutation_app_head, Permutation_app_comm.
    + cbn in IH. rewrite IH. by rewrite app_assoc.
Qed.

Lemma grouped_step (seen : list (EntityEstimate num)) (entity : EntityEstimate num)
    (by_type : list (string * list (EntityEstimate num))) :
  grouped seen by_type -> grouped (seen ++ [entity]) (group_append entity by_type).
Proof.
  intros (Hnd & Hrows & Hcover & Hperm).
  split; [|split; [|split]].
  - rewrite group_append_keys. case_decide as Hin; [done|].
    apply NoDup_app. repeat split; [done| |apply NoDup_singleton].
    intros t Ht Ht'. apply list_elem_of_singleton in Ht' as ->. done.
  - intros t entities Hin.
    apply (group_append_rows _ _ _ _ Hnd) in Hin
      as [[Ht Hrow]|[-> [(before & -> & Hrow)|[-> Hnot]]]].
    + destruct (Hrows t entities Hrow) as [Hne Hfilter]. split; [done|].
      rewrite filter_app, (filter_cons_False _ entity) by (cbn; congruence).
      by rewrite filter_nil, app_nil_r.
    + destruct (Hrows (type entity) before Hrow) as [Hne Hfilter].
      split; [by destruct before|].
      rewrite filter_app, (filter_cons_True _ entity) by done.
      rewrite filter_nil. by f_equal.
    + split; [done|].
      rewrite filter_app, (filter_cons_True _ entity) by done. rewrite filter_nil.
      destruct (filter _ seen) as [|e' rest] eqn:Hfilter; [done|].
      assert (He' : e' ∈ filter (fun e => type e = type entity) seen)
        by (rewrite Hfilter; left).
      apply list_elem_of_filter in He' as [Htype He']. destruct Hnot.
      rewrite <- Htype. by apply Hcover.
  - intros e He. rewrite group_append_keys. apply elem_of_app in He as [He|He].
    + case_decide; [by apply Hcover|]. apply elem_of_app. left. by apply Hcover.
    + apply list_elem_of_singleton in He as ->.
      case_decide as Hin; [done|]. apply elem_of_app. right. left.
  - rewrite group_append_concat. by rewrite Hperm.
Qed.

Lemma grouped_foldl (breakdown : list (EntityEstimate num)) :
  grouped breakdown
    (foldl (fun by_type entity => group_append entity by_type) [] breakdown).
Proof.
  induction breakdown as [|entity breakdown IH] using rev_ind.
  - split; [|split; [|split]]; cbn.
    + apply NoDup_nil_2.
    + intros t entities Hin. by apply elem_of_nil in Hin.
    + intros e Hin. by apply elem_of_nil in Hin.
    + done.
  - rewrite foldl_app. cbn [foldl]. by apply grouped_step.
Qed.

End BreakdownTable.

Lemma format_breakdown_table_groups {num} `{Number num}
    (breakdown : list (EntityEstimate num)) :
  (format_breakdown_table breakdown).*1
  = foldl (fun by_type entity => group_append entity by_type) [] breakdown.
Proof.
  unfold format_breakdown_table. rewrite <- list_fmap_compose.
  rewrite <- (list_fmap_id (foldl _ _ _)) at 2.
  apply list_fmap_ext. by intros _ [t entities] _.
Qed.

(** X6.  The breakdown table of the report has one group per entity type
    that occurs; a group is not empty, holds exactly the entities of its
    type, in their order in the breakdown, and its subtotal is the sum of
    their hours.  No entity is lost and none is listed twice. *)
Theorem breakdown_table_groups {num} `{Number num}
    (breakdown : list (EntityEstimate num)) :
  NoDup (format_breakdown_table breakdown).*1.*1
  /\ (forall e, e ∈ breakdown -> type e ∈ (format_breakdown_table breakdown).*1.*1)
  /\ Forall (fun row : string * list (EntityEstimate num) * num =>
               row.1.2 <> []
               /\ row.1.2 = filter (fun e => type e = row.1.1) breakdown
               /\ row.2 = sum_hours row.1.2)
       (format_breakdown_table breakdown)
  /\ concat (format_breakdown_table breakdown).*1.*2 ≡ₚ breakdown.
Proof.
  destruct (grouped_foldl breakdown) as (Hnd & Hrows & Hcover & Hperm).
  rewrite format_breakdown_table_groups.
  split; [done|]. split; [done|]. split; [|done].
  unfold format_breakdown_table. apply Forall_fmap, Forall_forall.
  intros [t entities] Hin. cbn. destruct (Hrows t entities Hin) as [Hne Hfilter].
  done.
Qed.





(** ** The report of an estimate *)

Section ReportFields.
Context {num : Type} `{Number num}.
Local Open Scope num_scope.



End ReportFields.















(** ** Migration: what is charged and what is reported *)








